(** * CITU Course Scheduler: the Pyodide entry points of [public/main.py]

    The module defines two functions that the browser host calls through
    Pyodide: [greet], an f-string formatter, and [get_initial_courses],
    which prints a diagnostic line and returns a literal list of two
    dictionaries.  They are embedded here as computations over the
    standard output of the interpreter, and the properties the
    specification states about them are proved. *)

From Stdlib Require Import ZArith String Ascii List Floats.PrimFloat.
From ITree Require Import ITree.
From stdpp Require Import base strings gmap list.

Local Open Scope string_scope.

(** ** The fragment of Python the module uses *)

Module Py.

(** Values stored in the course dictionaries: [int] is unbounded, [float]
    is IEEE 754 binary64, [str] is a sequence of characters.  Every
    literal of the module is ASCII, and nothing proved below looks inside
    a character. *)
Inductive value : Type :=
| VInt (z : Z)
| VStr (s : string)
| VFloat (f : float).

(** A [dict] with [str] keys. *)
Abbreviation dict := (gmap string value).

(** What reaches [sys.stdout].  One [print] call is one event; it carries
    the text written, line terminator included. *)
Inductive event : Type :=
| Stdout (text : string).

(** The part of the interpreter the module can observe or change. *)
Record world : Type := World { stdout : list event }.

(** A raised exception, by class name and message. *)
Record exn : Type := Exn { exn_class : string; exn_msg : string }.

(** A call either returns a value or raises; both leave a world behind. *)
Inductive outcome (A : Type) : Type :=
| Returned (v : A) (w : world)
| Raised (e : exn) (w : world).
Arguments Returned {A} v w.
Arguments Raised {A} e w.

Definition M (A : Type) : Type := world -> outcome A.

Definition ret {A} (v : A) : M A := fun w => Returned v w.

Definition bind {A B} (m : M A) (k : A -> M B) : M B :=
  fun w =>
    match m w with
    | Returned v w' => k v w'
    | Raised e w' => Raised e w'
    end.

Definition raise {A} (e : exn) : M A := fun w => Raised e w.

Definition value_of {A} (o : outcome A) : option A :=
  match o with
  | Returned v _ => Some v
  | Raised _ _ => None
  end.

Definition world_of {A} (o : outcome A) : world :=
  match o with
  | Returned _ w => w
  | Raised _ w => w
  end.

Definition returns {A} (o : outcome A) : bool :=
  match o with
  | Returned _ _ => true
  | Raised _ _ => false
  end.

Definition newline : string := String "010"%char EmptyString.

(** [print(s)] with the default [sep], [end] and [file]: the text and a
    line feed are appended to standard output; the call returns [None]. *)
Definition print (s : string) : M unit :=
  fun w => Returned tt (World (stdout w ++ [Stdout (s +:+ newline)])).

(** The parts of an f-string: literal text, or a replacement field
    [{e}] whose expression evaluated to a [str].  With no conversion and
    no format spec, a [str] formats to itself. *)
Inductive fpart : Type :=
| FLit (text : string)
| FField (s : string).

Definition fpart_text (p : fpart) : string :=
  match p with
  | FLit text => text
  | FField s => s
  end.

(** An f-string joins the texts of its parts, left to right. *)
Fixpoint fstring (parts : list fpart) : string :=
  match parts with
  | [] => ""
  | p :: rest => fpart_text p +:+ fstring rest
  end.

(** [needle in hay] on [str]: some position of [hay] starts with
    [needle]. *)
Fixpoint contains (needle hay : string) : bool :=
  String.prefix needle hay ||
  match hay with
  | EmptyString => false
  | String _ hay' => contains needle hay'
  end.

End Py.

Import Py.

#[global] Instance M_ret : MRet M := @Py.ret.
#[global] Instance M_bind : MBind M := fun A B k m => Py.bind m k.

(** A client calling [m] [n] times in a row, collecting what it got. *)
Fixpoint call_times {A} (n : nat) (m : M A) : M (list A) :=
  match n with
  | O => mret []
  | S n' => v ← m; vs ← call_times n' m; mret (v :: vs)
  end.

(** ** The module *)

(** [print("Python main.py loaded successfully via Pyodide!")], run once
    when the host loads the file. *)
Definition module_body : M unit :=
  print "Python main.py loaded successfully via Pyodide!".

(** [def greet(name): return f"Hello, {name}, from Python!"] *)
Definition greet (name : string) : M string :=
  mret (fstring [FLit "Hello, "; FField name; FLit ", from Python!"]).

(** [def get_initial_courses()]: one [print], then the list literal. *)
Definition get_initial_courses : M (list dict) :=
  print "Python: get_initial_courses called" ;;
  mret [ {[ "id" := VInt 1;
           "subject" := VStr "TEST101";
           "subject_title" := VStr "Introduction to Testing";
           "credited_units" := VFloat 3.0%float ]} ;
        {[ "id" := VInt 2;
           "subject" := VStr "PYD200";
           "subject_title" := VStr "Pyodide Basics";
           "credited_units" := VFloat 1.0%float ]} ].

(** The world right after the host loaded the module. *)
Definition loaded : world := world_of (module_body (World [])).

(** The event one call of [get_initial_courses] leaves on standard
    output. *)
Definition diagnostic : event :=
  Stdout ("Python: get_initial_courses called" +:+ newline).

(** ** The host calling the module *)

(** The browser host reaches the module through its two top-level
    functions, in any order and any number of times. *)
Inductive call : Type :=
| CallGreet (name : string)
| CallGetInitialCourses.

(** What a call hands back to the host. *)
Inductive answer : Type :=
| Greeting (text : string)
| Courses (cs : list dict).

Definition dispatch (c : call) : M answer :=
  match c with
  | CallGreet name => text ← greet name; mret (Greeting text)
  | CallGetInitialCourses => cs ← get_initial_courses; mret (Courses cs)
  end.

(** The calls of a session run one after the other on the same
    interpreter; a raise ends the session. *)
Fixpoint run_session (calls : list call) : M (list answer) :=
  match calls with
  | [] => mret []
  | c :: rest => a ← dispatch c; answers ← run_session rest; mret (a :: answers)
  end.

Definition is_courses_call (c : call) : bool :=
  match c with
  | CallGreet _ => false
  | CallGetInitialCourses => true
  end.

(** How many calls of a session are calls of [get_initial_courses]. *)
Definition courses_calls (calls : list call) : nat :=
  length (List.filter is_courses_call calls).

(** The event loading the module leaves on standard output. *)
Definition banner : event :=
  Stdout ("Python main.py loaded successfully via Pyodide!" +:+ newline).

(** ** Objects: what the list display allocates *)

(** The value returned by [get_initial_courses] is a reference to a
    [list] object holding references to two [dict] objects.  A display
    ([[...]], [{...}]) builds a new object each time it is evaluated. *)
Abbreviation loc := positive.

Inductive object : Type :=
| ODict (d : dict)
| OList (items : list loc).

Abbreviation heap := (gmap loc object).

(** Where the interpreter puts a new object: any address not in use. *)
Record allocator : Type := Allocator {
  pick : gset loc -> loc;
  pick_fresh : forall used : gset loc, pick used ∉ used
}.

Definition fresh_allocator : allocator :=
  {| pick := fresh; pick_fresh := is_fresh |}.

Definition alloc (a : allocator) (o : object) (h : heap) : loc * heap :=
  let l := pick a (dom h) in (l, <[l := o]> h).

(** [get_initial_courses] with the objects it builds: the [print], then
    the two dict displays left to right, then the list holding them. *)
Definition get_initial_courses_obj (a : allocator) (h : heap)
  : M (loc * heap) :=
  print "Python: get_initial_courses called" ;;
  let '(l1, h1) :=
    alloc a (ODict {[ "id" := VInt 1;
                      "subject" := VStr "TEST101";
                      "subject_title" := VStr "Introduction to Testing";
                      "credited_units" := VFloat 3.0%float ]}) h in
  let '(l2, h2) :=
    alloc a (ODict {[ "id" := VInt 2;
                      "subject" := VStr "PYD200";
                      "subject_title" := VStr "Pyodide Basics";
                      "credited_units" := VFloat 1.0%float ]}) h1 in
  mret (alloc a (OList [l1; l2]) h2).

(** Reading a reference back as a value. *)
Definition read_dict (h : heap) (l : loc) : option dict :=
  match h !! l with
  | Some (ODict d) => Some d
  | _ => None
  end.

Definition read_list (h : heap) (l : loc) : option (list dict) :=
  match h !! l with
  | Some (OList items) => mapM (read_dict h) items
  | _ => None
  end.

(** The addresses a list reference reaches: the list and its items. *)
Definition reach (h : heap) (l : loc) : gset loc :=
  match h !! l with
  | Some (OList items) => {[ l ]} ∪ list_to_set items
  | _ => {[ l ]}
  end.

(** The type tag of a value, as [type(v).__name__]. *)
Definition type_name (v : value) : string :=
  match v with
  | VInt _ => "int"
  | VStr _ => "str"
  | VFloat _ => "float"
  end.

(** ** Control: what a call does before it returns *)

(** The world-passing functions above say what a call returns and
    prints, not how control got there.  The interaction tree of a
    function keeps that: a tree may write, raise, wait on the
    environment, hand control back to the host, or run silently for
    ever. *)
Module Tree.

Variant pyE : Type -> Type :=
| Write (text : string) : pyE unit
    (* [sys.stdout.write]: returns at once *)
| Block : pyE unit
    (* a call that waits on the environment: [input()], [time.sleep()] *)
| Await : pyE unit
    (* [await], [yield]: control goes back to the host's event loop *)
| Throw (e : exn) : pyE Empty_set.

(** Where running a tree got to. *)
Inductive run (A : Type) : Type :=
| Done (o : outcome A)
| Blocked (w : world)
| Suspended (w : world)
| OutOfFuel.
Arguments Done {A} o.
Arguments Blocked {A} w.
Arguments Suspended {A} w.
Arguments OutOfFuel {A}.

(** One event: a write goes on with the tree, anything else stops the
    run there. *)
Definition step_event {A X} (e : pyE X) (w : world)
  : (X -> itree pyE A) -> (itree pyE A * world) + run A :=
  match e in pyE X return (X -> itree pyE A) -> (itree pyE A * world) + run A
  with
  | Write text => fun k => inl (k tt, World (stdout w ++ [Stdout text]))
  | Block => fun _ => inr (Blocked w)
  | Await => fun _ => inr (Suspended w)
  | Throw e => fun _ => inr (Done (Raised e w))
  end.

(** Run a tree for at most [fuel] nodes: every node visited, a return
    included, costs one. *)
Fixpoint exec {A} (fuel : nat) (t : itree pyE A) (w : world) : run A :=
  match fuel with
  | O => OutOfFuel
  | S fuel' =>
      match observe t with
      | RetF v => Done (Returned v w)
      | TauF t' => exec fuel' t' w
      | VisF e k =>
          match step_event e w k with
          | inl (t', w') => exec fuel' t' w'
          | inr r => r
          end
      end
  end.

(** [print(s)]: one write of the text and a line feed. *)
Definition print (s : string) : itree pyE unit :=
  ITree.trigger (Write (s +:+ newline)).

(** [def greet(name): return f"Hello, {name}, from Python!"] *)
Definition greet (name : string) : itree pyE string :=
  Ret (fstring [FLit "Hello, "; FField name; FLit ", from Python!"]).

(** [def get_initial_courses()]: one [print], then the list literal. *)
Definition get_initial_courses : itree pyE (list dict) :=
  ITree.bind (print "Python: get_initial_courses called") (fun _ =>
  Ret [ {[ "id" := VInt 1;
           "subject" := VStr "TEST101";
           "subject_title" := VStr "Introduction to Testing";
           "credited_units" := VFloat 3.0%float ]} ;
        {[ "id" := VInt 2;
           "subject" := VStr "PYD200";
           "subject_title" := VStr "Pyodide Basics";
           "credited_units" := VFloat 1.0%float ]} ]).

(** Bodies the module does not have, to compare with: a call that
    waits for input first, a coroutine, and a loop that never ends. *)
Definition greet_after_input (name : string) : itree pyE string :=
  ITree.bind (ITree.trigger Block) (fun _ => greet name).

Definition greet_async (name : string) : itree pyE string :=
  ITree.bind (ITree.trigger Await) (fun _ => greet name).

Definition greet_forever : itree pyE string := ITree.spin.

End Tree.

Example greet_Bob :
  greet "Bob" loaded = Returned "Hello, Bob, from Python!" loaded.
Proof. reflexivity. Qed.

Example get_initial_courses_trace :
  stdout (world_of (get_initial_courses loaded)) =
    [ Stdout ("Python main.py loaded successfully via Pyodide!" +:+ newline);
      Stdout ("Python: get_initial_courses called" +:+ newline) ].
Proof. reflexivity. Qed.

Example contains_examples :
  contains "lo, B" "Hello, Bob" = true /\
  contains "" "" = true /\
  contains "x" "" = false /\
  contains "Bib" "Hello, Bob" = false.
Proof. repeat split; reflexivity. Qed.

(** ** Strings: concatenation, prefixes and substrings *)

Section StringFacts.

(** The two equations of concatenation ([+:+] does not unfold under
    [simpl]). *)
Lemma append_nil (t : string) : "" +:+ t = t.
Proof. reflexivity. Qed.

Lemma append_cons (c : ascii) (s t : string) :
  String c s +:+ t = String c (s +:+ t).
Proof. reflexivity. Qed.

Lemma length_append (s t : string) :
  String.length (s +:+ t) = String.length s + String.length t.
Proof.
  induction s as [|c s IH]; [done|]. rewrite append_cons. simpl. by rewrite IH.
Qed.

(** Concatenation cancels on the right: when one side runs out first
    the lengths disagree. *)
Lemma append_inv_tail (t s1 s2 : string) : s1 +:+ t = s2 +:+ t -> s1 = s2.
Proof.
  revert s2. induction s1 as [|c s1 IH]; intros [|d s2] H.
  - done.
  - apply (f_equal String.length) in H.
    rewrite append_nil, append_cons in H. simpl in H.
    rewrite length_append in H. lia.
  - apply (f_equal String.length) in H.
    rewrite append_nil, append_cons in H. simpl in H.
    rewrite length_append in H. lia.
  - rewrite !append_cons in H. injection H as -> H. f_equal. by apply IH.
Qed.

Lemma prefix_append (n post : string) : String.prefix n (n +:+ post) = true.
Proof.
  induction n as [|c n IH].
  - by destruct post.
  - rewrite append_cons. simpl. destruct (ascii_dec c c); [apply IH | done].
Qed.

Lemma prefix_inv (n h : string) :
  String.prefix n h = true -> exists post, h = n +:+ post.
Proof.
  revert h. induction n as [|c n IH]; intros h H.
  - by exists h.
  - destruct h as [|d h]; simpl in H; [done|].
    destruct (ascii_dec c d) as [->|]; [|done].
    destruct (IH _ H) as [post ->]. by exists post.
Qed.

Lemma contains_eq (n h : string) :
  contains n h =
    String.prefix n h ||
    match h with
    | EmptyString => false
    | String _ h' => contains n h'
    end.
Proof. by destruct h. Qed.

(** [contains] decides the existence of a split around the needle. *)
Lemma contains_spec (n h : string) :
  contains n h = true <-> exists pre post, h = pre +:+ n +:+ post.
Proof.
  split.
  - induction h as [|c h IH]; rewrite contains_eq; intros H;
      apply orb_true_iff in H as [H|H].
    + destruct (prefix_inv _ _ H) as [post ->]. by exists "", post.
    + done.
    + destruct (prefix_inv _ _ H) as [post Hp]. by exists "", post.
    + destruct (IH H) as (pre & post & ->). by exists (String c pre), post.
  - intros (pre & post & ->). induction pre as [|c pre IH]; rewrite contains_eq.
    + by rewrite append_nil, prefix_append.
    + rewrite append_cons, IH. apply orb_true_r.
Qed.

End StringFacts.

(** ** Calls that do not depend on the world *)

Section Calls.

Context {A : Type}.

(** A computation that returns the same value from every world returns
    it on each of [n] successive calls. *)
Lemma call_times_const (m : M A) (v : A) :
  (forall w, exists w', m w = Returned v w') ->
  forall n w, exists w', call_times n m w = Returned (replicate n v) w'.
Proof.
  intros Hm n. induction n as [|n IH]; intros w.
  - by exists w.
  - destruct (Hm w) as [w1 H1]. destruct (IH w1) as [w2 H2].
    exists w2. simpl. unfold mbind, M_bind, Py.bind.
    by rewrite H1, H2.
Qed.

Lemma mret_run (v : A) (w : world) : (mret v : M A) w = Returned v w.
Proof. reflexivity. Qed.

End Calls.

(** ** The greeting *)

Section Greeting.

Implicit Types (name : string) (w : world).

(** C9: for every name, [greet name] is exactly the fixed prefix, the
    name and the fixed suffix, concatenated. *)
Theorem greet_concat name w :
  greet name w = Returned ("Hello, " +:+ name +:+ ", from Python!") w.
Proof. reflexivity. Qed.

(** C2: [greet("Ada")] is ["Hello, Ada, from Python!"]. *)
Theorem greet_Ada w :
  greet "Ada" w = Returned "Hello, Ada, from Python!" w.
Proof. reflexivity. Qed.

(** C3: for every name, the empty one included, the greeting is not
    empty and holds the name as a contiguous substring. *)
Theorem greet_contains_name name w :
  exists out w',
    greet name w = Returned out w' /\
    out <> "" /\
    contains name out = true /\
    exists pre post, out = pre +:+ name +:+ post.
Proof.
  eexists _, _. split; [apply greet_concat|].
  assert (Hsplit : exists pre post,
    "Hello, " +:+ name +:+ ", from Python!" = pre +:+ name +:+ post)
    by (by exists "Hello, ", ", from Python!").
  split; [discriminate|]. split; [by apply contains_spec | done].
Qed.

(** C5: evaluating [greet name] changes nothing: the world after the
    call is the world before it, standard output included. *)
Theorem greet_pure name w :
  exists out,
    greet name w = Returned out w /\
    stdout (world_of (greet name w)) = stdout w.
Proof. eexists. split; [apply greet_concat | by rewrite greet_concat]. Qed.

(** C10: [greet] is injective: distinct names give distinct greetings,
    whatever the worlds the two calls run in. *)
Theorem greet_injective name1 name2 w1 w2 :
  name1 <> name2 ->
  value_of (greet name1 w1) <> value_of (greet name2 w2).
Proof.
  intros Hne Heq. rewrite !greet_concat in Heq. simpl in Heq.
  apply (inj Some), (inj (String.app "Hello, ")) in Heq.
  apply Hne.
  by apply append_inv_tail in Heq.
Qed.

Lemma greet_injective_witness :
  "Ada" <> "Grace" /\
  value_of (greet "Ada" loaded) <> value_of (greet "Grace" loaded).
Proof.
  split; [discriminate|].
  apply (greet_injective "Ada" "Grace" loaded loaded). discriminate.
Defined.

End Greeting.

(** ** The course list *)

Section Courses.

Implicit Types (w : world).

(** C6: every call of [get_initial_courses] appends exactly one event,
    the diagnostic line, to standard output, and returns its value. *)
Theorem get_initial_courses_emits w :
  exists cs w',
    get_initial_courses w = Returned cs w' /\
    stdout w' = (stdout w ++ [diagnostic])%list.
Proof. eexists _, _. split; reflexivity. Qed.

(** C1: there is one list of two records, the first with id 1, subject
    TEST101 and 3.0 credited units, the second with id 2, subject PYD200
    and 1.0 credited units, that every call returns: any number of
    successive calls, from any world, yields that list each time. *)
Theorem get_initial_courses_fixed :
  exists c1 c2 : dict,
    (forall n w, exists w',
       call_times n get_initial_courses w = Returned (replicate n [c1; c2]) w') /\
    (c1 !! "id" = Some (VInt 1) /\
     c1 !! "subject" = Some (VStr "TEST101") /\
     c1 !! "credited_units" = Some (VFloat 3.0%float)) /\
    (c2 !! "id" = Some (VInt 2) /\
     c2 !! "subject" = Some (VStr "PYD200") /\
     c2 !! "credited_units" = Some (VFloat 1.0%float)).
Proof.
  eexists _, _. split.
  - apply call_times_const. intros w. eexists. reflexivity.
  - repeat split; reflexivity.
Qed.

(** C7: in the list a call returns, every record's [id] is an [int], and
    the ids are pairwise distinct. *)
Theorem get_initial_courses_ids_unique w :
  exists cs w',
    get_initial_courses w = Returned cs w' /\
    exists ids : list Z,
      (fun c : dict => c !! "id") <$> cs = (fun z => Some (VInt z)) <$> ids /\
      NoDup ids.
Proof.
  eexists _, _. split; [reflexivity|].
  exists [1; 2]%Z. split; [reflexivity|].
  by apply (bool_decide_unpack _).
Qed.

End Courses.

(** ** Both entry points *)

Section EntryPoints.

(** C4: neither entry point raises: for every name and every world the
    outcome of [greet], and of [get_initial_courses], is a return. *)
Theorem entry_points_do_not_raise :
  (forall (name : string) (w : world), returns (greet name w) = true) /\
  (forall w : world, returns (get_initial_courses w) = true).
Proof. split; intros; reflexivity. Qed.

(** What the runner does with bodies the module does not have: waiting
    for input blocks, a coroutine suspends, and a loop runs out of any
    fuel. *)
Lemma exec_other_bodies (name : string) (w : world) (fuel : nat) :
  Tree.exec (S fuel) (Tree.greet_after_input name) w = Tree.Blocked w /\
  Tree.exec (S fuel) (Tree.greet_async name) w = Tree.Suspended w /\
  Tree.exec fuel Tree.greet_forever w = Tree.OutOfFuel.
Proof.
  split; [reflexivity|]. split; [reflexivity|].
  induction fuel as [|fuel IH]; [reflexivity | exact IH].
Qed.

(** C8: both entry points terminate and return at once.  Run as
    interaction trees, [greet] is done after one node and
    [get_initial_courses] after two (its write, then its return),
    whatever the name and the world: neither blocks on the environment,
    suspends, or runs silently, and what each returns and leaves on
    standard output is what the world-passing function gives. *)
Theorem entry_points_return_at_once :
  (forall (name : string) (w : world) (extra : nat),
     exists out w',
       Tree.exec (1 + extra) (Tree.greet name) w = Tree.Done (Returned out w') /\
       greet name w = Returned out w') /\
  (forall (w : world) (extra : nat),
     exists cs w',
       Tree.exec (2 + extra) Tree.get_initial_courses w
         = Tree.Done (Returned cs w') /\
       get_initial_courses w = Returned cs w').
Proof. split; intros; eexists _, _; split; reflexivity. Qed.

End EntryPoints.

(** ** More on the greeting: length and the way back *)

Section GreetingShape.

Implicit Types (name : string) (w : world).

Lemma substring_append_exact (s t : string) :
  String.substring 0 (String.length s) (s +:+ t) = s.
Proof.
  induction s as [|c s IH].
  - by destruct t.
  - rewrite append_cons. simpl. by rewrite IH.
Qed.

(** X1: the greeting is 21 characters longer than the name (7 before
    it, 14 after), so it is never the name itself. *)
Theorem greet_length name w :
  exists out,
    greet name w = Returned out w /\
    String.length out = String.length name + 21 /\
    out <> name.
Proof.
  exists ("Hello, " +:+ name +:+ ", from Python!"). split; [reflexivity|].
  assert (Hlen : String.length ("Hello, " +:+ name +:+ ", from Python!")
                 = String.length name + 21).
  { rewrite !length_append. simpl. lia. }
  split; [done|]. intros Heq. rewrite Heq in Hlen. lia.
Qed.

(** X2: the name is read back from the greeting alone by dropping its
    first 7 and last 14 characters ([out[7:len(out)-14]]). *)
Theorem greet_name_recoverable name w :
  exists out,
    greet name w = Returned out w /\
    String.substring 7 (String.length out - 21) out = name.
Proof.
  exists ("Hello, " +:+ name +:+ ", from Python!"). split; [reflexivity|].
  rewrite !length_append. simpl String.length.
  replace (7 + (String.length name + 14) - 21) with (String.length name) by lia.
  change (String.substring 7 (String.length name)
            ("Hello, " +:+ name +:+ ", from Python!"))
    with (String.substring 0 (String.length name) (name +:+ ", from Python!")).
  apply substring_append_exact.
Qed.

End GreetingShape.

(** ** Sessions: the entry points called in any order *)

Section Sessions.

Implicit Types (calls : list call) (w : world).

Lemma bind_run {A B} (m : M A) (k : A -> M B) (v : A) w w' :
  m w = Returned v w' -> (m ≫= k) w = k v w'.
Proof. intros H. unfold mbind, M_bind, Py.bind. by rewrite H. Qed.

(** What one call does: its answer is fixed by the call, and standard
    output grows by the diagnostic line exactly when the call is
    [get_initial_courses]. *)
Lemma dispatch_run (c : call) w :
  exists a,
    dispatch c w =
      Returned a (World (stdout w ++
                         if is_courses_call c then [diagnostic] else [])) /\
    forall w0, value_of (dispatch c w0) = Some a.
Proof.
  destruct c as [name|]; eexists; (split; [|intros w0; reflexivity]).
  - simpl. rewrite app_nil_r. by destruct w.
  - reflexivity.
Qed.

(** An unfolding of [run_session] one call at a time. *)
Lemma run_session_cons (c : call) calls (a : answer) (answers : list answer)
    w w1 w2 :
  dispatch c w = Returned a w1 ->
  run_session calls w1 = Returned answers w2 ->
  run_session (c :: calls) w = Returned (a :: answers) w2.
Proof.
  intros Hc Hrest. simpl.
  rewrite (bind_run _ _ _ _ _ Hc), (bind_run _ _ _ _ _ Hrest). reflexivity.
Qed.

(** Both facts about a session at once, by induction on its calls. *)
Lemma run_session_facts calls w :
  exists answers w',
    run_session calls w = Returned answers w' /\
    stdout w' = (stdout w ++ replicate (courses_calls calls) diagnostic)%list /\
    Forall2 (fun c a => forall w0, value_of (dispatch c w0) = Some a)
            calls answers.
Proof.
  revert w. induction calls as [|c calls IH]; intros w.
  - exists [], w. split; [done|]. split; [by rewrite app_nil_r | constructor].
  - destruct (dispatch_run c w) as (a & Hc & Ha).
    destruct (IH (World (stdout w ++
                if is_courses_call c then [diagnostic] else []))) as
      (answers & w' & Hrest & Hout & Hall).
    exists (a :: answers), w'. split; [|split].
    + by apply (run_session_cons _ _ _ _ _ _ _ Hc).
    + rewrite Hout. unfold courses_calls. simpl.
      destruct (is_courses_call c); simpl.
      * by rewrite <- app_assoc.
      * by rewrite app_nil_r.
    + by constructor.
Qed.

(** X3: a session never raises, and what it leaves on standard output
    is what was there before followed by one diagnostic line per call
    of [get_initial_courses]; calls of [greet] leave no trace. *)
Theorem run_session_stdout calls w :
  exists answers w',
    run_session calls w = Returned answers w' /\
    stdout w' = (stdout w ++ replicate (courses_calls calls) diagnostic)%list.
Proof.
  destruct (run_session_facts calls w) as (answers & w' & Hrun & Hout & _).
  by exists answers, w'.
Qed.

(** X4: in a session every call gets the answer it would get on its
    own, from any world at all: no call sees what ran before it. *)
Theorem run_session_answers calls w :
  exists answers w',
    run_session calls w = Returned answers w' /\
    Forall2 (fun c a => forall w0, value_of (dispatch c w0) = Some a)
            calls answers.
Proof.
  destruct (run_session_facts calls w) as (answers & w' & Hrun & _ & Hall).
  by exists answers, w'.
Qed.

(** X5: loading the module and then running any session leaves the
    load banner first, once, followed by nothing but the diagnostic
    lines of the session. *)
Theorem load_then_session calls :
  exists answers w',
    (module_body ;; run_session calls) (World []) = Returned answers w' /\
    stdout w' = banner :: replicate (courses_calls calls) diagnostic.
Proof.
  destruct (run_session_facts calls loaded) as (answers & w' & Hrun & Hout & _).
  exists answers, w'. split; [|exact Hout].
  rewrite <- Hrun. reflexivity.
Qed.

End Sessions.

(** ** The shape of the course records *)

Section CourseRecords.

Implicit Types (w : world).

(** X6: every record a call returns has exactly the four keys [id],
    [subject], [subject_title] and [credited_units], holding an [int],
    a [str], a [str] and a [float]; any other key is missing. *)
Theorem get_initial_courses_schema w :
  exists cs w',
    get_initial_courses w = Returned cs w' /\
    Forall (fun c : dict =>
              dom c = {[ "id"; "subject"; "subject_title"; "credited_units" ]} /\
              type_name <$> c !! "id" = Some "int" /\
              type_name <$> c !! "subject" = Some "str" /\
              type_name <$> c !! "subject_title" = Some "str" /\
              type_name <$> c !! "credited_units" = Some "float") cs.
Proof.
  eexists _, _. split; [reflexivity|].
  repeat constructor; rewrite !dom_insert_L, dom_empty_L; set_solver.
Qed.

(** X7: the subject codes of the returned records are strings and are
    pairwise distinct, so a record is also identified by its subject. *)
Theorem get_initial_courses_subjects_unique w :
  exists cs w',
    get_initial_courses w = Returned cs w' /\
    exists codes : list string,
      (fun c : dict => c !! "subject") <$> cs
        = (fun s => Some (VStr s)) <$> codes /\
      NoDup codes.
Proof.
  eexists _, _. split; [reflexivity|].
  exists ["TEST101"; "PYD200"]. split; [reflexivity|].
  by apply (bool_decide_unpack _).
Qed.

End CourseRecords.

(** ** The objects behind the returned list *)

#[local] Set Warnings "-clear-no-such-hyp".

Section Objects.

Implicit Types (a : allocator) (h : heap) (w : world).

Lemma alloc_eq a (o : object) h :
  alloc a o h = (pick a (dom h), <[pick a (dom h) := o]> h).
Proof. reflexivity. Qed.

Lemma pick_lookup a h : h !! pick a (dom h) = None.
Proof. apply not_elem_of_dom, pick_fresh. Qed.

(** One call, spelled out: three new addresses, the two dicts and the
    list stored at them, and the same values and output as the
    value-level function. *)
Lemma get_initial_courses_obj_run a h w :
  exists (l1 l2 l : loc) (d1 d2 : dict),
    get_initial_courses_obj a h w =
      Returned (l, <[l := OList [l1; l2]]>
                     (<[l2 := ODict d2]> (<[l1 := ODict d1]> h)))
               (World (stdout w ++ [diagnostic])) /\
    get_initial_courses w =
      Returned [d1; d2] (World (stdout w ++ [diagnostic])) /\
    (l1 ∉ dom h) ∧ (l2 ∉ dom h) ∧ (l ∉ dom h) ∧
    l1 ≠ l2 ∧ l1 ≠ l ∧ l2 ≠ l.
Proof.
  unfold get_initial_courses_obj.
  set (d1 := ({[ "id" := VInt 1; "subject" := VStr "TEST101";
                 "subject_title" := VStr "Introduction to Testing";
                 "credited_units" := VFloat 3.0%float ]} : dict)).
  set (d2 := ({[ "id" := VInt 2; "subject" := VStr "PYD200";
                 "subject_title" := VStr "Pyodide Basics";
                 "credited_units" := VFloat 1.0%float ]} : dict)).
  rewrite !alloc_eq.
  set (l1 := pick a (dom h)).
  set (h1 := <[l1 := ODict d1]> h).
  set (l2 := pick a (dom h1)).
  set (h2 := <[l2 := ODict d2]> h1).
  set (l := pick a (dom h2)).
  assert (H1 : l1 ∉ dom h) by apply pick_fresh.
  assert (H2 : l2 ∉ dom h1) by apply pick_fresh.
  assert (H3 : l ∉ dom h2) by apply pick_fresh.
  unfold h2 in H3. unfold h1 in H2, H3.
  rewrite !dom_insert_L in H2, H3.
  exists l1, l2, l, d1, d2.
  split; [reflexivity|]. split; [reflexivity|].
  set_solver.
Qed.

(** Everything one call does to the heap, in one statement. *)
Lemma get_initial_courses_obj_facts a h w :
  exists l h' cs w',
    get_initial_courses_obj a h w = Returned (l, h') w' /\
    get_initial_courses w = Returned cs w' /\
    read_list h' l = Some cs /\
    size (reach h' l) = 3 /\
    reach h' l ## dom h /\
    dom h' = dom h ∪ reach h' l /\
    h ⊆ h'.
Proof.
  destruct (get_initial_courses_obj_run a h w) as
    (l1 & l2 & l & d1 & d2 & Hobj & Hval & H1 & H2 & H3 & H12 & H1l & H2l).
  eexists _, _, _, _. split; [exact Hobj|]. split; [exact Hval|].
  assert (Hreach : reach (<[l := OList [l1; l2]]>
                     (<[l2 := ODict d2]> (<[l1 := ODict d1]> h))) l
                   = {[ l; l1; l2 ]}).
  { unfold reach. rewrite lookup_insert_eq. simpl. set_solver. }
  rewrite Hreach. repeat split.
  - unfold read_list. rewrite lookup_insert_eq. simpl.
    unfold read_dict.
    rewrite (lookup_insert_ne _ l l1), (lookup_insert_ne _ l2 l1),
      lookup_insert_eq by done.
    simpl.
    rewrite (lookup_insert_ne _ l l2), lookup_insert_eq by done.
    reflexivity.
  - rewrite !size_union, !size_singleton by set_solver. done.
  - set_solver.
  - rewrite !dom_insert_L. set_solver.
  - etrans; [|apply insert_subseteq].
    + etrans; [|apply insert_subseteq].
      * apply insert_subseteq. by apply not_elem_of_dom.
      * rewrite lookup_insert_ne by done. by apply not_elem_of_dom.
    + rewrite !lookup_insert_ne by done. by apply not_elem_of_dom.
Qed.

(** X8: the object-level call refines the value-level one: it prints the
    same line, and the reference it returns reads back, in the heap it
    leaves, as the very list [get_initial_courses] returns; whatever the
    heap held before, mutated earlier results included. *)
Theorem get_initial_courses_obj_refines a h w :
  exists l h' cs w',
    get_initial_courses_obj a h w = Returned (l, h') w' /\
    get_initial_courses w = Returned cs w' /\
    read_list h' l = Some cs.
Proof.
  destruct (get_initial_courses_obj_facts a h w) as
    (l & h' & cs & w' & Hobj & Hval & Hread & _).
  by exists l, h', cs, w'.
Qed.

(** X9: a call builds three new objects and touches no other: the list
    and its two dicts sit at three distinct addresses, none of them in
    use before the call, and every object of the old heap is still
    there, unchanged. *)
Theorem get_initial_courses_obj_fresh a h w :
  exists l h' w',
    get_initial_courses_obj a h w = Returned (l, h') w' /\
    size (reach h' l) = 3 /\
    reach h' l ## dom h /\
    dom h' = dom h ∪ reach h' l /\
    h ⊆ h'.
Proof.
  destruct (get_initial_courses_obj_facts a h w) as
    (l & h' & cs & w' & Hobj & _ & _ & Hsize & Hnew & Hdom & Hsub).
  by exists l, h', w'.
Qed.

(** X10: two calls share no object.  Take the result of one call, let
    the host change the heap in any way that keeps the objects of that
    result alive (other objects may be gone), and call again: the new
    list and dicts are none of the old ones, the heap the host left is
    untouched, and the new reference reads back as the same list of
    records as ever. *)
Theorem calls_share_no_object a h w (l1 : loc) h1 w1 (hm : heap) (wm : world) :
  get_initial_courses_obj a h w = Returned (l1, h1) w1 ->
  reach h1 l1 ⊆ dom hm ->
  exists l2 h2 w2,
    get_initial_courses_obj a hm wm = Returned (l2, h2) w2 /\
    reach h2 l2 ## reach h1 l1 /\
    hm ⊆ h2 /\
    read_list h2 l2 = value_of (get_initial_courses wm).
Proof.
  intros _ Halive.
  destruct (get_initial_courses_obj_facts a hm wm) as
    (l2 & h2 & cs2 & w2 & Hobj2 & Hval2 & Hread2 & _ & Hnew2 & _ & Hsub2).
  exists l2, h2, w2. split; [exact Hobj2|]. split; [|split; [exact Hsub2|]].
  - set_solver.
  - by rewrite Hval2.
Qed.

(** The first call runs in a heap holding one unrelated object; the
    host then empties the returned list and drops the unrelated
    object. *)
Lemma calls_share_no_object_witness :
  exists l1 h1 w1,
    get_initial_courses_obj fresh_allocator {[ 9%positive := ODict ∅ ]} loaded
      = Returned (l1, h1) w1 /\
    reach h1 l1 ⊆ dom (delete 9%positive (<[l1 := OList []]> h1)) /\
    exists l2 h2 w2,
      get_initial_courses_obj fresh_allocator
          (delete 9%positive (<[l1 := OList []]> h1)) w1
        = Returned (l2, h2) w2 /\
      reach h2 l2 ## reach h1 l1 /\
      delete 9%positive (<[l1 := OList []]> h1) ⊆ h2 /\
      read_list h2 l2 = value_of (get_initial_courses w1).
Proof.
  eexists _, _, _. split; [reflexivity|].
  split; [apply (bool_decide_unpack _); vm_compute; exact I|].
  eapply (calls_share_no_object fresh_allocator {[ 9%positive := ODict ∅ ]}
            loaded); [reflexivity|].
  apply (bool_decide_unpack _); vm_compute; exact I.
Defined.

End Objects.
